(** * streamlit-toc: the page registry [ToC] and the menu renderer [display_toc]

    A shallow embedding of [app.py].  Python values are modelled as follows:
    - [str] as [string], [int] as [Z], [Optional[list]] as an optional list
      whose elements are strings or [None];
    - [st.session_state] (a dict) as a [gmap string string]; [.get(key)] is
      the map lookup, [None] when the key is absent;
    - code that writes to the page or raises is a function from the state of
      the run to the new state and an outcome; the state written before an
      exception is raised is kept, as in Python. *)

From Stdlib Require Import ZArith Lia List Sorted Permutation.
From stdpp Require Import base option list gmap strings.

Local Open Scope string_scope.
Local Open Scope Z_scope.
Local Open Scope list_scope.

(** ** Exceptions and outcomes *)

Inductive Exception : Type :=
  | ValueError                      (* [list.index]: value not in the list    *)
  | IndexError                      (* list subscript out of range            *)
  | AttributeError                  (* attribute lookup failed                *)
  | ContentError (msg : string).    (* anything raised by a page's own code   *)

Inductive result (A : Type) : Type :=
  | Ok (a : A)
  | Raise (e : Exception).
Arguments Ok {A} a.
Arguments Raise {A} e.

(** ** The state of one run of the script *)

Inductive Container : Type := Sidebar | MainArea.
Inductive Orientation : Type := vertical | horizontal.

Record MenuArgs : Type := mkMenuArgs {
  menu_title : option string;
  options : list string;
  orientation : Orientation;
  icons : list string
}.

Inductive UIEvent : Type :=
  | EvTitle (body : string)                       (* [st.title(body)]          *)
  | EvMenu (where_ : Container) (args : MenuArgs) (* [st_menu(...)] in a container *)
  | EvWrite (body : string).                      (* output of a page's own code *)

(** [container] is the container that elements are drawn in at this point
    of the run: the main area at top level, the sidebar inside
    [with st.sidebar:]. *)
Record World : Type := mkWorld {
  session_state : gmap string string;
  screen : list UIEvent;
  container : Container
}.

Definition Action (A : Type) : Type := World -> World * result A.

Definition ret {A} (a : A) : Action A := fun w => (w, Ok a).

Definition raise {A} (e : Exception) : Action A := fun w => (w, Raise e).

Definition bind {A B} (m : Action A) (k : A -> Action B) : Action B :=
  fun w =>
    match m w with
    | (w', Ok a) => k a w'
    | (w', Raise e) => (w', Raise e)
    end.

Definition lift {A} (r : result A) : Action A := fun w => (w, r).

Notation "x <- m ;; k" := (bind m (fun x => k))
  (at level 100, m at next level, right associativity).
Notation "m ;;; k" := (bind m (fun _ => k))
  (at level 100, right associativity).

(** [st.title(body)]: one heading is appended to the page. *)
Definition st_title (body : string) : Action unit :=
  fun w =>
    (mkWorld (session_state w) (screen w ++ [EvTitle body]) (container w),
     Ok tt).

(** [st.session_state.get(key)] *)
Definition session_get (key : string) : Action (option string) :=
  fun w => (w, Ok (session_state w !! key)).

(** ** Pages *)

(** A Python object as far as this program looks at it: the only attribute
    it ever asks for is [load]. *)
Record Object : Type := mkObject {
  obj_repr : string;
  attr_load : option (Action unit)
}.

(** The value of [Page.contents], by what [isinstance] answers on it:
    [Callable] when [isinstance(contents, Callable)], [Module] when it is
    not callable and [isinstance(contents, ModuleType)], [Other] for any
    other object (the dataclass does not check the annotation). *)
Inductive Contents : Type :=
  | Callable (f : Action unit)
  | Module (m : Object)
  | Other (o : Object).

Record Page : Type := mkPage {
  uid : string;
  title : string;
  icon : string;
  contents : Contents;
  index : Z;
  show_to : option (list (option string))
}.

(** ** Python built-ins used by the registry *)

(** [a == b] for two values that are each a string or [None]. *)
Definition py_eq (a b : option string) : bool :=
  match a, b with
  | Some s, Some s' => String.eqb s s'
  | None, None => true
  | _, _ => false
  end.

(** [v in l] for a list [l] whose elements are strings or [None]. *)
Definition py_in (v : option string) (l : list (option string)) : bool :=
  existsb (py_eq v) l.

(** [sorted(l, key=key)]: ascending and stable.  An element is inserted in
    front of the first element of the sorted tail whose key is not smaller,
    so that it stays in front of the later elements with the same key. *)
Section Sorted.
Context {A : Type} (key : A -> Z).

Fixpoint insert_by_key (x : A) (l : list A) : list A :=
  match l with
  | [] => [x]
  | y :: l' => if (key x <=? key y)%Z then x :: y :: l' else y :: insert_by_key x l'
  end.

Fixpoint sorted (l : list A) : list A :=
  match l with
  | [] => []
  | x :: l' => insert_by_key x (sorted l')
  end.

Definition key_le (x y : A) : Prop := (key x <= key y)%Z.
End Sorted.

(** [l.index(x)]: position of the first element equal to [x]. *)
Fixpoint list_index (x : string) (l : list string) : result nat :=
  match l with
  | [] => Raise ValueError
  | y :: l' =>
      if String.eqb y x then Ok 0%nat
      else match list_index x l' with
           | Ok i => Ok (S i)
           | Raise e => Raise e
           end
  end.

(** [l[i]] for [i >= 0]. *)
Definition subscript {A} (l : list A) (i : nat) : result A :=
  match l !! i with
  | Some a => Ok a
  | None => Raise IndexError
  end.

(** ** class ToC *)

Record ToC : Type := mkToC { pages : list Page }.

(** The filter's lambda, with the value of
    [st.session_state.get('username')] as [username]. *)
Definition visible (username : option string) (x : Page) : bool :=
  match show_to x with
  | None => true
  | Some l => py_in username l
  end.

Definition __init__ (pages : list Page) : Action ToC :=
  username <- session_get "username" ;;
  ret (mkToC (sorted index (List.filter (visible username) pages))).

(** [getattr(page, by)] is the record projection [by]. *)
Definition get_pages {A} (self : ToC) (by_ : Page -> A) : list A :=
  map by_ (pages self).

Definition _get_page_by_title (self : ToC) (title_ : string) : result Page :=
  match list_index title_ (get_pages self title) with
  | Ok i => subscript (pages self) i
  | Raise e => Raise e
  end.

(** [contents.load]: attribute lookup on a module. *)
Definition getattr_load (m : Object) : Action (Action unit) :=
  match attr_load m with
  | Some f => ret f
  | None => raise AttributeError
  end.

Definition load_page (self : ToC) (title_ : string) (show_title : bool)
  : Action unit :=
  (if show_title then st_title title_ else ret tt) ;;;
  page <- lift (_get_page_by_title self title_) ;;
  match contents page with
  | Callable f => f
  | Module m => load <- getattr_load m ;; load
  | Other _ => ret tt
  end.

(** ** display_toc *)

(** The two context managers of the program. *)
Inductive ContextManager : Type := st_sidebar | nullcontext.

Definition enter (c : Container) (w : World) : World :=
  mkWorld (session_state w) (screen w) c.

(** [with context: body].  [st.sidebar] makes the sidebar the current
    container for the body and gives the previous one back when the body
    ends, also when it raises; [nullcontext()] changes nothing, so that the
    body draws in the container its caller is in. *)
Definition with_ {A} (context : ContextManager) (body : Action A) : Action A :=
  match context with
  | nullcontext => body
  | st_sidebar =>
      fun w =>
        match body (enter Sidebar w) with
        | (w', r) => (enter (container w) w', r)
        end
  end.

Section Renderer.
(** The option chosen in the menu widget: the widget is not part of this
    program, only its answer is used. *)
Variable st_menu_answer : MenuArgs -> World -> string.

(** [st_menu(...)]: the widget computes its default, [options[0]], before
    it draws anything, so that an empty list of options raises [IndexError]
    and leaves the page as it was; otherwise the menu is drawn in the
    current container. *)
Definition st_menu (args : MenuArgs) : Action string :=
  fun w =>
    match options args with
    | [] => (w, Raise IndexError)
    | _ :: _ =>
        (mkWorld (session_state w)
                 (screen w ++ [EvMenu (container w) args]) (container w),
         Ok (st_menu_answer args w))
    end.

Definition display_toc (toc : ToC) (in_sidebar : bool)
    (menu_title_ : option string) : Action string :=
  let context := if in_sidebar then st_sidebar else nullcontext in
  let orientation_ := if in_sidebar then vertical else horizontal in
  page_title <- with_ context
    (st_menu (mkMenuArgs menu_title_ (get_pages toc title) orientation_
                         (get_pages toc icon))) ;;
  ret page_title.
End Renderer.

(** ** The pages of the demo application, with their bodies left abstract *)

Definition say (body : string) : Action unit :=
  fun w =>
    (mkWorld (session_state w) (screen w ++ [EvWrite body]) (container w),
     Ok tt).

Definition page_1 : Page :=
  mkPage "page_1" "Overview" "house" (Callable (say "page_1")) 0 None.
Definition page_2 : Page :=
  mkPage "page_2" "Usage" "code-slash" (Callable (say "page_2")) 1 None.
Definition page_3 : Page :=
  mkPage "page_3" "Secret" "incognito" (Callable (say "page_3")) 2
         (Some [Some "admin"]).

Definition demo_pages : list Page := [page_2; page_3; page_1].

Definition world_of (username : option string) : World :=
  mkWorld (match username with
           | Some u => {[ "username" := u ]}
           | None => ∅
           end) [] MainArea.

(** The value [__init__] builds, as a function of the state it reads. *)
Definition username_of (w : World) : option string :=
  session_state w !! "username".

Definition registry_of (w : World) (ps : list Page) : ToC :=
  mkToC (sorted index (List.filter (visible (username_of w)) ps)).

(** The state after [st.title(t)]. *)
Definition headed (t : string) (w : World) : World :=
  mkWorld (session_state w) (screen w ++ [EvTitle t]) (container w).

(** Pages used as concrete inputs below. *)
Definition nobody_page : Page :=
  mkPage "page_4" "Nobody" "lock" (Callable (say "page_4")) 3 (Some []).

Definition loader : Object := mkObject "loader" (Some (say "loaded")).

Definition object_page : Page :=
  mkPage "page_5" "Object" "box" (Other loader) 4 None.

Definition module_page : Page :=
  mkPage "page_6" "Module" "file" (Module loader) 5 None.

Definition shadow_page : Page :=
  mkPage "page_7" "Usage" "eye-slash" (Callable (say "page_7")) 0
         (Some [Some "admin"]).

(** ** Dispatch, and the script [main] *)

(** The [if]/[elif] that ends [load_page], on its own. *)
Definition invoke (c : Contents) : Action unit :=
  match c with
  | Callable f => f
  | Module m => load <- getattr_load m ;; load
  | Other _ => ret tt
  end.

(** The state after [display_toc] has drawn the menu in container [c]. *)
Definition drawn (c : Container) (args : MenuArgs) (w : World) : World :=
  mkWorld (session_state w) (screen w ++ [EvMenu c args]) (container w).

(** The arguments [display_toc] gives to the widget. *)
Definition menu_args (toc : ToC) (in_sidebar : bool)
    (heading : option string) : MenuArgs :=
  mkMenuArgs heading (get_pages toc title)
             (if in_sidebar then vertical else horizontal)
             (get_pages toc icon).

(** More pages used as concrete inputs below. *)
Definition pair_page : Page :=
  mkPage "page_9" "Pair" "people" (Callable (say "page_9")) 7
         (Some [Some "alice"; Some "bob"]).

Definition anonymous_page : Page :=
  mkPage "page_10" "Anonymous" "person" (Callable (say "page_10")) 8
         (Some [None]).

Section Main.
(** The widgets of the host framework and the bodies of the three pages are
    not part of this program: each is an arbitrary action, which may write
    to the page, change the session state, or raise.  The widgets take the
    arguments that [main] passes ([label], [value], [key]); the containers
    they are drawn in ([with st.sidebar:], [with left:], [with right:]) are
    part of what the widgets do. *)
Variable st_menu_answer : MenuArgs -> World -> string.
Variable st_text_input : string -> option string -> option string -> Action string.
Variable st_columns : nat -> Action unit.
Variable st_checkbox : string -> bool -> Action bool.
Variables page_1_body page_2_body page_3_body : Action unit.

Definition main_pages : list Page :=
  [ mkPage "page2" "Page 2" "hand-index-thumb" (Callable page_2_body) 1 None;
    mkPage "page3" "Secret page" "arrow-up-circle" (Callable page_3_body) 2
           (Some [Some "admin"]);
    mkPage "page1" "Page 1" "person-square" (Callable page_1_body) 0 None ].

Definition main : Action unit :=
  toc <- __init__ main_pages ;;
  username <- st_text_input "Username" (Some "user") (Some "username") ;;
  menu_title_ <- st_text_input "Menu title (optional)" None None ;;
  st_columns 2 ;;;
  in_sidebar <- st_checkbox "Show menu in sidebar" true ;;
  show_title <- st_checkbox "Show page title" true ;;
  page_title <- display_toc st_menu_answer toc in_sidebar (Some menu_title_) ;;
  load_page toc page_title show_title.
End Main.

(** Widgets used as concrete inputs below: the text input stores what was
    typed under its key, the others only answer. *)
Definition typed_text_input (typed : string)
    (label : string) (value key : option string) : Action string :=
  fun w =>
    match key with
    | Some k =>
        (mkWorld (<[k := typed]> (session_state w)) (screen w) (container w),
         Ok typed)
    | None => (w, Ok "")
    end.

Definition plain_columns (n : nat) : Action unit := ret tt.

Definition plain_checkbox (label : string) (value : bool) : Action bool :=
  ret value.

Definition pick (choice : string) (args : MenuArgs) (w : World) : string :=
  choice.

Definition bare_module : Object := mkObject "bare" None.

Definition bare_page : Page :=
  mkPage "page_8" "Bare" "file-x" (Module bare_module) 6 None.

(** * Facts about the built-ins *)

Section SortedFacts.
Context {A : Type} (key : A -> Z).

Local Abbreviation key_le := (key_le key).

Lemma insert_by_key_perm x l : Permutation (x :: l) (insert_by_key key x l).
Proof.
  induction l as [|y l IH]; simpl; [reflexivity|].
  destruct (key x <=? key y)%Z; [reflexivity|].
  rewrite perm_swap. now constructor.
Qed.

Lemma sorted_perm l : Permutation l (sorted key l).
Proof.
  induction l as [|x l IH]; simpl; [constructor|].
  rewrite <- insert_by_key_perm. now constructor.
Qed.

Lemma insert_by_key_HdRel a x l :
  key_le a x -> HdRel key_le a l -> HdRel key_le a (insert_by_key key x l).
Proof.
  intros Hax Hl. destruct l as [|y l]; simpl; [now constructor|].
  destruct (key x <=? key y)%Z; constructor; [assumption|].
  now inversion Hl.
Qed.

Lemma insert_by_key_Sorted x l :
  Sorted key_le l -> Sorted key_le (insert_by_key key x l).
Proof.
  induction l as [|y l IH]; intros Hs; simpl.
  - repeat constructor.
  - destruct (Z.leb_spec (key x) (key y)) as [Hle|Hgt].
    + constructor; [assumption|]. now constructor.
    + inversion Hs as [|? ? Hs' Hhd]; subst.
      constructor; [now apply IH|].
      apply insert_by_key_HdRel; [|assumption]. unfold key_le. lia.
Qed.

Lemma sorted_Sorted l : Sorted key_le (sorted key l).
Proof.
  induction l as [|x l IH]; simpl; [constructor|].
  now apply insert_by_key_Sorted.
Qed.

Lemma sorted_StronglySorted l : StronglySorted key_le (sorted key l).
Proof.
  apply Sorted_StronglySorted; [|apply sorted_Sorted].
  intros x y z. unfold key_le. lia.
Qed.

(** Stability: the elements that carry one given key come out in the order
    in which they went in. *)
Lemma insert_by_key_stable k x l :
  List.filter (fun y => key y =? k)%Z (insert_by_key key x l) =
  List.filter (fun y => key y =? k)%Z (x :: l).
Proof.
  induction l as [|y l IH]; [reflexivity|].
  cbn [insert_by_key].
  destruct (Z.leb_spec (key x) (key y)) as [Hle|Hgt]; [reflexivity|].
  cbn [List.filter] in *. rewrite IH.
  destruct (Z.eqb_spec (key x) k) as [Hx|Hx];
    destruct (Z.eqb_spec (key y) k) as [Hy|Hy]; try reflexivity.
  lia.
Qed.

Lemma sorted_stable k l :
  List.filter (fun y => key y =? k)%Z (sorted key l) =
  List.filter (fun y => key y =? k)%Z l.
Proof.
  induction l as [|x l IH]; [reflexivity|].
  cbn [sorted]. rewrite insert_by_key_stable.
  cbn [List.filter]. now rewrite IH.
Qed.

Lemma sorted_In x l : In x (sorted key l) <-> In x l.
Proof.
  split; apply Permutation_in; [symmetry|]; apply sorted_perm.
Qed.

End SortedFacts.

(** * Facts about the registry *)

Lemma init_run ps w : __init__ ps w = (w, Ok (registry_of w ps)).
Proof. reflexivity. Qed.

Lemma py_eq_true a b : py_eq a b = true <-> a = b.
Proof.
  destruct a as [s|], b as [s'|]; simpl; try (split; congruence).
  rewrite String.eqb_eq. split; congruence.
Qed.

Lemma py_in_true u l : py_in u l = true <-> In u l.
Proof.
  unfold py_in. rewrite existsb_exists. split.
  - intros (x & Hx & He). apply py_eq_true in He. now subst.
  - intros Hu. exists u. split; [assumption|]. now apply py_eq_true.
Qed.

Lemma In_registry w ps x :
  In x (pages (registry_of w ps)) <->
  In x ps /\ visible (username_of w) x = true.
Proof.
  unfold registry_of; simpl. rewrite sorted_In. apply filter_In.
Qed.

Lemma list_index_absent t l :
  (forall s, In s l -> s <> t) -> list_index t l = Raise ValueError.
Proof.
  induction l as [|y l IH]; intros H; simpl; [reflexivity|].
  destruct (String.eqb_spec y t) as [->|_].
  - exfalso. apply (H t); [now left|reflexivity].
  - rewrite IH; [reflexivity|]. intros s Hs. apply H. now right.
Qed.

Lemma list_index_first t pre post :
  (forall s, In s pre -> s <> t) ->
  list_index t (pre ++ t :: post) = Ok (length pre).
Proof.
  induction pre as [|y pre IH]; intros H; simpl.
  - now rewrite String.eqb_refl.
  - destruct (String.eqb_spec y t) as [->|_].
    + exfalso. apply (H t); [now left|reflexivity].
    + rewrite IH; [reflexivity|]. intros s Hs. apply H. now right.
Qed.

(** The first page carrying a title. *)
Lemma first_titled t (l : list Page) :
  (exists q, In q l /\ title q = t) ->
  exists pre p post,
    l = pre ++ p :: post /\ title p = t /\
    (forall q, In q pre -> title q <> t).
Proof.
  induction l as [|y l IH]; intros (q & Hq & Ht); [destruct Hq|].
  destruct (String.eqb_spec (title y) t) as [Hy|Hy].
  - exists [], y, l. repeat split; [assumption|]. intros ? [].
  - destruct Hq as [->|Hq]; [contradiction|].
    destruct IH as (pre & p & post & -> & Hp & Hpre); [eauto|].
    exists (y :: pre), p, post. repeat split; [assumption|].
    intros r [<-|Hr]; [assumption|now apply Hpre].
Qed.

Lemma get_page_first self t pre p post :
  pages self = pre ++ p :: post -> title p = t ->
  (forall q, In q pre -> title q <> t) ->
  _get_page_by_title self t = Ok p.
Proof.
  intros Hl Hp Hpre. unfold _get_page_by_title, get_pages, subscript.
  rewrite Hl, map_app. simpl. rewrite Hp.
  rewrite list_index_first.
  - rewrite length_map.
    rewrite (list_lookup_middle pre post p (length pre) eq_refl).
    reflexivity.
  - intros s Hs. apply in_map_iff in Hs as (q & <- & Hq). now apply Hpre.
Qed.

Lemma get_page_absent self t :
  (forall q, In q (pages self) -> title q <> t) ->
  _get_page_by_title self t = Raise ValueError.
Proof.
  intros H. unfold _get_page_by_title, get_pages.
  rewrite list_index_absent; [reflexivity|].
  intros s Hs. apply in_map_iff in Hs as (q & <- & Hq). now apply H.
Qed.

(** A failed lookup leaves [load_page] with the heading, if asked for, and
    the lookup's exception. *)
Lemma load_page_lookup_fails self t show e w :
  _get_page_by_title self t = Raise e ->
  load_page self t show w =
  ((if show then headed t w else w), Raise e).
Proof.
  intros H. unfold load_page, bind, lift. rewrite H.
  destruct show; reflexivity.
Qed.

Lemma load_page_found self t show p w :
  _get_page_by_title self t = Ok p ->
  load_page self t show w =
  (match contents p with
   | Callable f => f
   | Module m => load <- getattr_load m ;; load
   | Other _ => ret tt
   end)
    (if show then headed t w else w).
Proof.
  intros H. unfold load_page, lift. unfold bind at 1 2. rewrite H.
  destruct show; reflexivity.
Qed.

Lemma get_pages_lookup {A} (self : ToC) (by_ : Page -> A) (i : nat) :
  get_pages self by_ !! i = by_ <$> pages self !! i.
Proof. unfold get_pages. apply list_lookup_fmap. Qed.

Lemma registry_none_visible w ps :
  (forall p, In p ps -> visible (username_of w) p = false) ->
  registry_of w ps = mkToC [].
Proof.
  intros H. unfold registry_of. f_equal.
  replace (List.filter (visible (username_of w)) ps) with (@nil Page);
    [reflexivity|].
  symmetry. induction ps as [|p ps IH]; [reflexivity|]. simpl.
  rewrite (H p); [|now left]. apply IH. intros q Hq. apply H. now right.
Qed.

(** * The claims *)

(** ** Visibility filter *)

(** C1 (as amended). For every viewer identity read from the session and
    every page of the input list: a page whose [show_to] is [None] is kept by
    the registry's filter; a page whose [show_to] is the empty list is kept
    for no viewer; a page with [show_to = [a; b]] is kept if and only if the
    viewer identity is [a] or [b]. *)
Theorem C1_visibility_filter (w : World) (ps : list Page) (x : Page) :
  In x ps ->
  exists toc, __init__ ps w = (w, Ok toc) /\
    (show_to x = None -> In x (pages toc)) /\
    (show_to x = Some [] -> ~ In x (pages toc)) /\
    (forall a b, show_to x = Some [a; b] ->
       (In x (pages toc) <-> username_of w = a \/ username_of w = b)).
Proof.
  intros Hx. exists (registry_of w ps). split; [apply init_run|].
  split; [|split].
  - intros Hn. apply In_registry. split; [assumption|].
    unfold visible. now rewrite Hn.
  - intros He Hin. apply In_registry in Hin as [_ Hv].
    unfold visible in Hv. rewrite He in Hv. discriminate Hv.
  - intros a b Hab. split.
    + intros Hin. apply In_registry in Hin as [_ Hv].
      unfold visible in Hv. rewrite Hab in Hv.
      apply py_in_true in Hv as [<- | [<- | [ ]]]; auto.
    + intros Hu. apply In_registry. split; [assumption|].
      unfold visible. rewrite Hab. apply py_in_true.
      destruct Hu as [-> | ->]; simpl; auto.
Qed.

(** The theorem at three pages of one input list, for the viewer ["bob"]:
    the page open to all is kept, the page with the empty list is dropped,
    the page shown to ["alice"] and ["bob"] is kept, and it is dropped for
    the viewer ["user"]. *)
Lemma C1_visibility_filter_witness :
  (exists toc,
     __init__ [pair_page; nobody_page; page_1] (world_of (Some "bob")) =
       (world_of (Some "bob"), Ok toc) /\
     In page_1 (pages toc) /\
     ~ In nobody_page (pages toc) /\
     In pair_page (pages toc)) /\
  (exists toc,
     __init__ [pair_page; nobody_page; page_1] (world_of (Some "user")) =
       (world_of (Some "user"), Ok toc) /\
     ~ In pair_page (pages toc)).
Proof.
  pose (ps := [pair_page; nobody_page; page_1]).
  assert (I1 : In page_1 ps) by (simpl; auto).
  assert (I2 : In nobody_page ps) by (simpl; auto).
  assert (I3 : In pair_page ps) by (simpl; auto).
  split.
  - destruct (C1_visibility_filter (world_of (Some "bob")) ps page_1 I1)
      as (t1 & E1 & Hnone & _ & _).
    destruct (C1_visibility_filter (world_of (Some "bob")) ps nobody_page I2)
      as (t2 & E2 & _ & Hempty & _).
    destruct (C1_visibility_filter (world_of (Some "bob")) ps pair_page I3)
      as (t3 & E3 & _ & _ & Hpair).
    exists t1. split; [exact E1|].
    assert (E12 : t2 = t1) by congruence.
    assert (E13 : t3 = t1) by congruence.
    rewrite E12 in Hempty. rewrite E13 in Hpair.
    split; [exact (Hnone eq_refl)|]. split; [exact (Hempty eq_refl)|].
    apply (Hpair (Some "alice") (Some "bob") eq_refl). right. reflexivity.
  - destruct (C1_visibility_filter (world_of (Some "user")) ps pair_page I3)
      as (t3 & E3 & _ & _ & Hpair).
    exists t3. split; [exact E3|].
    intros Hin.
    apply (Hpair (Some "alice") (Some "bob") eq_refl) in Hin
      as [Hu | Hu]; vm_compute in Hu; discriminate Hu.
Defined.

(** C1 as written fails on the empty collection: a page whose [show_to] is
    the empty list is dropped by the filter, here for the viewer ["user"]. *)
Lemma C1_empty_show_to_is_hidden :
  show_to nobody_page = Some [] /\
  visible (Some "user") nobody_page = false /\
  __init__ [nobody_page] (world_of (Some "user")) =
    (world_of (Some "user"), Ok (mkToC [])).
Proof. repeat split. Qed.

(** ** Lookup by title *)

(** C2. For every registry and title: if some page of the registry has the
    title, [_get_page_by_title] returns the first such page in the
    registry's order; if none has it, the lookup raises [ValueError], and
    [load_page] ends with that exception, having invoked no page. *)
Theorem C2_lookup_by_title (self : ToC) (t : string) :
  ((exists q, In q (pages self) /\ title q = t) ->
   exists pre p post,
     pages self = pre ++ p :: post /\ title p = t /\
     (forall q, In q pre -> title q <> t) /\
     _get_page_by_title self t = Ok p) /\
  ((forall q, In q (pages self) -> title q <> t) ->
   _get_page_by_title self t = Raise ValueError /\
   forall show w,
     load_page self t show w =
     ((if show then headed t w else w), Raise ValueError)).
Proof.
  split.
  - intros H. destruct (first_titled t (pages self) H)
      as (pre & p & post & Hl & Hp & Hpre).
    exists pre, p, post. repeat split; try assumption.
    now apply (get_page_first self t pre p post).
  - intros H. pose proof (get_page_absent self t H) as Hr.
    split; [assumption|]. intros show w.
    now apply load_page_lookup_fails.
Qed.

Lemma C2_lookup_by_title_witness :
  (exists q, In q [page_1; page_2] /\ title q = "Usage") /\
  (forall q, In q [page_1; page_2] -> title q <> "Secret") /\
  (exists pre p post,
     [page_1; page_2] = pre ++ p :: post /\ title p = "Usage" /\
     (forall q, In q pre -> title q <> "Usage") /\
     _get_page_by_title (mkToC [page_1; page_2]) "Usage" = Ok p) /\
  (_get_page_by_title (mkToC [page_1; page_2]) "Secret" = Raise ValueError /\
   forall show w,
     load_page (mkToC [page_1; page_2]) "Secret" show w =
     ((if show then headed "Secret" w else w), Raise ValueError)).
Proof.
  assert (H1 : exists q, In q [page_1; page_2] /\ title q = "Usage").
  { exists page_2. simpl. auto. }
  assert (H2 : forall q, In q [page_1; page_2] -> title q <> "Secret").
  { intros q [<- | [<- | [ ]]]; discriminate. }
  split; [exact H1|]. split; [exact H2|]. split.
  - exact (proj1 (C2_lookup_by_title (mkToC [page_1; page_2]) "Usage") H1).
  - exact (proj2 (C2_lookup_by_title (mkToC [page_1; page_2]) "Secret") H2).
Defined.

(** ** Order of the registry *)

(** C3. For every input list, the registry holds the visible pages in order
    of non-decreasing [index], and the pages that share an index keep the
    order they had in the input; in particular the visible pages
    [P0 (index 0); P1 (index 2); P2 (index 1)] give [P0; P2; P1]. *)
Theorem C3_sorted_stable (w : World) (ps : list Page) :
  exists toc, __init__ ps w = (w, Ok toc) /\
    StronglySorted (key_le index) (pages toc) /\
    Permutation (List.filter (visible (username_of w)) ps) (pages toc) /\
    (forall k,
       List.filter (fun p => index p =? k) (pages toc) =
       List.filter (fun p => index p =? k)
                   (List.filter (visible (username_of w)) ps)) /\
    (forall P0 P1 P2,
       ps = [P0; P1; P2] ->
       index P0 = 0 -> index P1 = 2 -> index P2 = 1 ->
       visible (username_of w) P0 = true ->
       visible (username_of w) P1 = true ->
       visible (username_of w) P2 = true ->
       pages toc = [P0; P2; P1]).
Proof.
  exists (registry_of w ps). split; [apply init_run|].
  unfold registry_of; cbn [pages].
  split; [apply sorted_StronglySorted|].
  split; [apply sorted_perm|].
  split; [intros k; apply sorted_stable|].
  intros P0 P1 P2 -> H0 H1 H2 V0 V1 V2.
  cbn [List.filter]. rewrite V0, V1, V2.
  cbn [sorted insert_by_key]. rewrite H1, H2.
  change (2 <=? 1) with false. cbn [insert_by_key].
  rewrite H0, H2. reflexivity.
Qed.

Lemma C3_sorted_stable_witness :
  exists toc,
    __init__ [page_1; page_3; page_2] (world_of (Some "admin")) =
      (world_of (Some "admin"), Ok toc) /\
    pages toc = [page_1; page_2; page_3].
Proof.
  destruct (C3_sorted_stable (world_of (Some "admin")) [page_1; page_3; page_2])
    as (toc & Hrun & _ & _ & _ & Hex).
  exists toc. split; [exact Hrun|].
  apply (Hex page_1 page_3 page_2); reflexivity.
Defined.

(** ** Filtering comes before lookup *)

(** C4. For two pages of the input with the same title, one visible to the
    viewer and the other not, and no other visible page with that title, a
    lookup of the title in the registry returns the visible page, whatever
    the other pages of the input are and in whatever order the input is
    given. *)
Theorem C4_filter_before_lookup (w : World) (ps : list Page) (p q : Page) :
  In p ps -> In q ps ->
  title p = title q ->
  visible (username_of w) p = true ->
  visible (username_of w) q = false ->
  (forall r, In r ps -> visible (username_of w) r = true ->
             title r = title p -> r = p) ->
  forall ps', Permutation ps ps' ->
    exists toc, __init__ ps' w = (w, Ok toc) /\
                _get_page_by_title toc (title q) = Ok p.
Proof.
  intros Hp _ Ht Vp _ Huniq ps' Hperm.
  exists (registry_of w ps'). split; [apply init_run|].
  rewrite <- Ht.
  assert (Hin : In p (pages (registry_of w ps'))).
  { apply In_registry. split; [|assumption].
    now apply (Permutation_in _ Hperm). }
  destruct (first_titled (title p) (pages (registry_of w ps')))
    as (pre & p' & post & Hl & Hp' & Hpre); [now exists p|].
  assert (Hin' : In p' (pages (registry_of w ps'))).
  { rewrite Hl. apply in_or_app. right. now left. }
  apply In_registry in Hin' as [Hin' Vp'].
  assert (E : p' = p).
  { apply Huniq; try assumption.
    now apply (Permutation_in _ (Permutation_sym Hperm)). }
  subst p'. now apply (get_page_first _ _ pre p post).
Qed.

(** The theorem on an input of three pages: the hidden page comes first in
    the input and has the smallest index, and the visible page with the same
    title is not the first page of the registry. *)
Lemma C4_filter_before_lookup_witness :
  title page_2 = title shadow_page /\
  visible (username_of (world_of (Some "user"))) page_2 = true /\
  visible (username_of (world_of (Some "user"))) shadow_page = false /\
  (exists toc,
     __init__ [shadow_page; page_2; page_1] (world_of (Some "user")) =
       (world_of (Some "user"), Ok toc) /\
     _get_page_by_title toc (title shadow_page) = Ok page_2) /\
  (exists toc,
     __init__ [page_1; page_2; shadow_page] (world_of (Some "user")) =
       (world_of (Some "user"), Ok toc) /\
     _get_page_by_title toc (title shadow_page) = Ok page_2).
Proof.
  pose (ps := [shadow_page; page_2; page_1]).
  assert (Hp : In page_2 ps) by (simpl; auto).
  assert (Hq : In shadow_page ps) by (simpl; auto).
  assert (Hu : forall r, In r ps ->
                 visible (username_of (world_of (Some "user"))) r = true ->
                 title r = title page_2 -> r = page_2).
  { intros r [<- | [<- | [<- | [ ]]]] Hv Ht;
      [discriminate Hv|reflexivity|discriminate Ht]. }
  assert (Hrev : Permutation ps [page_1; page_2; shadow_page]).
  { unfold ps.
    apply (perm_trans (l' := [page_2; shadow_page; page_1]));
      [apply perm_swap|].
    apply (perm_trans (l' := [page_2; page_1; shadow_page]));
      [apply perm_skip, perm_swap|apply perm_swap]. }
  split; [reflexivity|]. split; [reflexivity|]. split; [reflexivity|].
  split.
  - exact (C4_filter_before_lookup (world_of (Some "user")) ps page_2
             shadow_page Hp Hq eq_refl eq_refl eq_refl Hu ps
             (Permutation_refl ps)).
  - exact (C4_filter_before_lookup (world_of (Some "user")) ps page_2
             shadow_page Hp Hq eq_refl eq_refl eq_refl Hu
             [page_1; page_2; shadow_page] Hrev).
Defined.

(** ** Dispatch on the contents *)

(** C5 (as amended). For every page that [load_page] resolves: if its
    contents is directly invocable, [load_page] calls it with no arguments;
    otherwise, if the contents is a module, [load_page] invokes the module's
    zero-argument [load] entry point.  In both cases the call runs after the
    optional heading, and its state and outcome are those of [load_page]. *)
Theorem C5_dispatch (self : ToC) (t : string) (show : bool) (p : Page)
    (w : World) :
  _get_page_by_title self t = Ok p ->
  (forall f, contents p = Callable f ->
     load_page self t show w = f (if show then headed t w else w)) /\
  (forall m load, contents p = Module m -> attr_load m = Some load ->
     load_page self t show w = load (if show then headed t w else w)).
Proof.
  intros Hp. rewrite (load_page_found self t show p w Hp). split.
  - intros f ->. reflexivity.
  - intros m load -> Hl. unfold getattr_load. rewrite Hl. reflexivity.
Qed.

Lemma C5_dispatch_witness :
  _get_page_by_title (mkToC [page_1; module_page]) "Module" = Ok module_page /\
  load_page (mkToC [page_1; module_page]) "Module" true (world_of None) =
    say "loaded" (headed "Module" (world_of None)) /\
  load_page (mkToC [page_1; module_page]) "Overview" false (world_of None) =
    say "page_1" (world_of None).
Proof.
  split; [reflexivity|]. split.
  - apply (proj2 (C5_dispatch (mkToC [page_1; module_page]) "Module" true
                    module_page (world_of None) eq_refl) loader);
      reflexivity.
  - apply (proj1 (C5_dispatch (mkToC [page_1; module_page]) "Overview" false
                    page_1 (world_of None) eq_refl));
      reflexivity.
Defined.

(** C5 as written fails when the contents is not invocable and not a module:
    the object below has a [load] entry point, and [load_page] returns
    without invoking it. *)
Lemma C5_load_not_invoked_on_other_object :
  contents object_page = Other loader /\
  attr_load loader = Some (say "loaded") /\
  _get_page_by_title (mkToC [object_page]) "Object" = Ok object_page /\
  load_page (mkToC [object_page]) "Object" false (world_of None) =
    (world_of None, Ok tt) /\
  say "loaded" (world_of None) <> (world_of None, Ok tt).
Proof.
  split; [reflexivity|]. split; [reflexivity|]. split; [reflexivity|].
  split; [reflexivity|]. intros H.
  apply (f_equal (fun r => length (screen (fst r)))) in H. discriminate H.
Qed.

(** C9. For every page that [load_page] resolves whose contents is neither
    invocable nor a module, [load_page] invokes nothing and returns normally:
    the state is the one after the optional heading, the outcome is [Ok]. *)
Theorem C9_unmatched_contents_no_op (self : ToC) (t : string) (show : bool)
    (p : Page) (o : Object) (w : World) :
  _get_page_by_title self t = Ok p ->
  contents p = Other o ->
  load_page self t show w = ((if show then headed t w else w), Ok tt).
Proof.
  intros Hp Ho. rewrite (load_page_found self t show p w Hp), Ho.
  reflexivity.
Qed.

Lemma C9_unmatched_contents_no_op_witness :
  _get_page_by_title (mkToC [page_1; object_page]) "Object" = Ok object_page /\
  contents object_page = Other loader /\
  load_page (mkToC [page_1; object_page]) "Object" true (world_of None) =
    (headed "Object" (world_of None), Ok tt).
Proof.
  split; [reflexivity|]. split; [reflexivity|].
  apply (C9_unmatched_contents_no_op (mkToC [page_1; object_page]) "Object"
           true object_page loader (world_of None)); reflexivity.
Defined.

(** C10. With [show_title] true, [load_page] emits the heading and then does
    what it does with [show_title] false, lookup included; so when the lookup
    fails the heading is on the page and the lookup's exception is raised. *)
Theorem C10_heading_before_lookup (self : ToC) (t : string) (w : World) :
  load_page self t true w = (st_title t ;;; load_page self t false) w /\
  fst (st_title t w) = headed t w /\
  ((forall q, In q (pages self) -> title q <> t) ->
   load_page self t true w = (headed t w, Raise ValueError)).
Proof.
  split; [reflexivity|]. split; [reflexivity|].
  intros H.
  apply (load_page_lookup_fails self t true ValueError w).
  now apply get_page_absent.
Qed.

Lemma C10_heading_before_lookup_witness :
  (forall q, In q [page_1; page_2] -> title q <> "Secret") /\
  load_page (mkToC [page_1; page_2]) "Secret" true (world_of (Some "user")) =
    (headed "Secret" (world_of (Some "user")), Raise ValueError) /\
  screen (headed "Secret" (world_of (Some "user"))) = [EvTitle "Secret"].
Proof.
  assert (H : forall q, In q [page_1; page_2] -> title q <> "Secret").
  { intros q [<- | [<- | [ ]]]; discriminate. }
  split; [exact H|]. split; [|reflexivity].
  exact (proj2 (proj2 (C10_heading_before_lookup (mkToC [page_1; page_2])
                         "Secret" (world_of (Some "user")))) H).
Defined.

(** ** Projections and the empty registry *)

(** C6. For every registry, [get_pages] by title and by icon give lists of
    the same length, whose elements at each position are the title and the
    icon of the page at that position of the registry, which is in sorted
    order. *)
Theorem C6_parallel_projections (w : World) (ps : list Page) :
  exists toc, __init__ ps w = (w, Ok toc) /\
    length (get_pages toc title) = length (get_pages toc icon) /\
    (forall i : nat,
       get_pages toc title !! i = title <$> pages toc !! i /\
       get_pages toc icon !! i = icon <$> pages toc !! i) /\
    get_pages toc title = map title (pages toc) /\
    get_pages toc icon = map icon (pages toc) /\
    StronglySorted (key_le index) (pages toc).
Proof.
  exists (registry_of w ps). split; [apply init_run|].
  split; [unfold get_pages; now rewrite !length_map|].
  split; [intros i; split; apply get_pages_lookup|].
  split; [reflexivity|]. split; [reflexivity|].
  apply sorted_StronglySorted.
Qed.

(** C7. For every input list and viewer identity under which no page is
    visible, building the registry raises nothing and gives a registry whose
    page list is empty. *)
Theorem C7_empty_registry (w : World) (ps : list Page) :
  (forall p, In p ps -> visible (username_of w) p = false) ->
  __init__ ps w = (w, Ok (mkToC [])).
Proof.
  intros H. rewrite init_run. now rewrite registry_none_visible.
Qed.

Lemma C7_empty_registry_witness :
  (forall p, In p [page_3; nobody_page] ->
     visible (username_of (world_of None)) p = false) /\
  __init__ [page_3; nobody_page] (world_of None) =
    (world_of None, Ok (mkToC [])).
Proof.
  assert (H : forall p, In p [page_3; nobody_page] ->
                visible (username_of (world_of None)) p = false).
  { intros p [<- | [<- | [ ]]]; reflexivity. }
  split; [exact H|].
  exact (C7_empty_registry (world_of None) [page_3; nobody_page] H).
Defined.

(** ** Placement of the menu *)

Lemma enter_back w : enter (container w) (enter Sidebar w) = w.
Proof. now destruct w. Qed.

Lemma display_toc_nonempty (answer : MenuArgs -> World -> string) toc
    in_sidebar heading w :
  pages toc <> [] ->
  display_toc answer toc in_sidebar heading w =
    (drawn (if in_sidebar then Sidebar else container w)
           (menu_args toc in_sidebar heading) w,
     Ok (answer (menu_args toc in_sidebar heading)
                (if in_sidebar then enter Sidebar w else w))).
Proof.
  intros Hne. unfold display_toc, bind, with_, st_menu, menu_args, get_pages.
  destruct (pages toc) as [|p l]; [contradiction|].
  destruct in_sidebar; reflexivity.
Qed.

Lemma display_toc_empty (answer : MenuArgs -> World -> string) toc
    in_sidebar heading w :
  pages toc = [] ->
  display_toc answer toc in_sidebar heading w = (w, Raise IndexError).
Proof.
  intros He. unfold display_toc, bind, with_, st_menu, get_pages.
  rewrite He. destruct in_sidebar; simpl; [|reflexivity].
  now rewrite enter_back.
Qed.

(** C8 (as amended). For every call to [display_toc] on a registry that is
    not empty, one menu is drawn: with [in_sidebar] true it is in the sidebar
    and vertical; with [in_sidebar] false it is horizontal and in the
    container the caller is in, which is the main area for a call at top
    level; so for a call at top level the container is the sidebar exactly
    when the orientation is vertical.  On an empty registry the widget raises
    [IndexError] and no menu is drawn. *)
Theorem C8_placement_couples_orientation
    (answer : MenuArgs -> World -> string) (toc : ToC) (in_sidebar : bool)
    (heading : option string) (w : World) :
  (pages toc <> [] ->
   exists (c : Container) (args : MenuArgs),
     display_toc answer toc in_sidebar heading w =
       (drawn c args w,
        Ok (answer args (if in_sidebar then enter Sidebar w else w))) /\
     c = (if in_sidebar then Sidebar else container w) /\
     orientation args = (if in_sidebar then vertical else horizontal) /\
     (container w = MainArea ->
      (c = Sidebar <-> orientation args = vertical)) /\
     menu_title args = heading /\
     options args = get_pages toc title /\
     icons args = get_pages toc icon) /\
  (pages toc = [] ->
   display_toc answer toc in_sidebar heading w = (w, Raise IndexError)).
Proof.
  split.
  - intros Hne.
    exists (if in_sidebar then Sidebar else container w),
           (menu_args toc in_sidebar heading).
    split; [now apply display_toc_nonempty|].
    split; [reflexivity|]. split; [reflexivity|].
    split; [|repeat split].
    intros Hw. rewrite Hw.
    destruct in_sidebar; simpl; split; intros; reflexivity || discriminate.
  - apply display_toc_empty.
Qed.

Lemma C8_placement_couples_orientation_witness :
  pages (mkToC [page_1; page_2]) <> [] /\
  pages (mkToC []) = [] /\
  (exists (c : Container) (args : MenuArgs),
     display_toc (pick "Usage") (mkToC [page_1; page_2]) true None
                 (world_of None) =
       (drawn c args (world_of None), Ok "Usage") /\
     c = Sidebar /\ orientation args = vertical) /\
  (exists (c : Container) (args : MenuArgs),
     display_toc (pick "Usage") (mkToC [page_1; page_2]) false None
                 (world_of None) =
       (drawn c args (world_of None), Ok "Usage") /\
     c = MainArea /\ orientation args = horizontal) /\
  display_toc (pick "Usage") (mkToC []) true None (world_of None) =
    (world_of None, Raise IndexError).
Proof.
  assert (Hne : pages (mkToC [page_1; page_2]) <> []) by discriminate.
  split; [exact Hne|]. split; [reflexivity|]. split; [|split].
  - destruct (proj1 (C8_placement_couples_orientation (pick "Usage")
                       (mkToC [page_1; page_2]) true None (world_of None))
                    Hne)
      as (c & args & Hrun & Hc & Ho & _).
    exists c, args. repeat split; assumption.
  - destruct (proj1 (C8_placement_couples_orientation (pick "Usage")
                       (mkToC [page_1; page_2]) false None (world_of None))
                    Hne)
      as (c & args & Hrun & Hc & Ho & _).
    exists c, args. repeat split; assumption.
  - exact (proj2 (C8_placement_couples_orientation (pick "Usage") (mkToC [])
                    true None (world_of None))
                 eq_refl).
Defined.

(** C8 as written fails for a call with [in_sidebar] false made inside
    [with st.sidebar:]: the menu is drawn in the sidebar and is horizontal;
    and on an empty registry no menu is drawn at all. *)
Lemma C8_inline_menu_inside_sidebar :
  with_ st_sidebar
    (display_toc (pick "Usage") (mkToC [page_1; page_2]) false None)
    (world_of None) =
    (drawn Sidebar
       (mkMenuArgs None ["Overview"; "Usage"] horizontal
                   ["house"; "code-slash"])
       (world_of None),
     Ok "Usage") /\
  display_toc (pick "Usage") (mkToC []) false None (world_of None) =
    (world_of None, Raise IndexError).
Proof. split; reflexivity. Qed.

(** * Further properties of the registry *)

Section SortedMore.
Context {A : Type} (key : A -> Z).

Lemma insert_by_key_front x l :
  HdRel (key_le key) x l -> insert_by_key key x l = x :: l.
Proof.
  intros H. destruct l as [|y l]; [reflexivity|]. simpl.
  inversion H as [|? ? Hxy]; subst. unfold key_le in Hxy.
  destruct (Z.leb_spec (key x) (key y)); [reflexivity|lia].
Qed.

(** Sorting a list that is in order already gives the list back. *)
Lemma sorted_of_Sorted l : Sorted (key_le key) l -> sorted key l = l.
Proof.
  induction l as [|x l IH]; intros Hs; [reflexivity|].
  inversion Hs as [|? ? Hs' Hhd]; subst. simpl.
  rewrite (IH Hs'). now apply insert_by_key_front.
Qed.

(** Two lists in order with the same elements and no key twice are equal. *)
Lemma Sorted_perm_unique l1 :
  forall l2,
    StronglySorted (key_le key) l1 -> StronglySorted (key_le key) l2 ->
    Permutation l1 l2 -> List.NoDup (map key l1) -> l1 = l2.
Proof.
  induction l1 as [|x l1 IH]; intros l2 S1 S2 Hp Hn.
  - apply Permutation_nil in Hp. now subst.
  - destruct l2 as [|y l2].
    { symmetry in Hp. apply Permutation_nil in Hp. discriminate. }
    apply StronglySorted_inv in S1 as [S1 F1].
    apply StronglySorted_inv in S2 as [S2 F2].
    simpl in Hn. apply NoDup_cons_iff in Hn as [Hx Hn].
    assert (Hxy : x = y).
    { assert (Ix : In x (y :: l2)) by (apply (Permutation_in _ Hp); now left).
      destruct Ix as [->|Ix]; [reflexivity|].
      assert (Iy : In y (x :: l1)).
      { apply (Permutation_in _ (Permutation_sym Hp)). now left. }
      destruct Iy as [->|Iy]; [reflexivity|].
      exfalso. apply Hx.
      rewrite List.Forall_forall in F1, F2.
      pose proof (F1 y Iy) as Hle1. pose proof (F2 x Ix) as Hle2.
      unfold key_le in Hle1, Hle2.
      replace (key x) with (key y) by lia. now apply in_map. }
    subst y. f_equal. apply IH; try assumption.
    now apply Permutation_cons_inv in Hp.
Qed.

Lemma sorted_length l : length (sorted key l) = length l.
Proof. symmetry. apply Permutation_length, sorted_perm. Qed.

End SortedMore.

Lemma filter_perm {A} (f : A -> bool) l1 l2 :
  Permutation l1 l2 -> Permutation (List.filter f l1) (List.filter f l2).
Proof.
  induction 1 as [|x l1 l2 _ IH|x y l|l1 l2 l3 _ IH1 _ IH2]; simpl.
  - constructor.
  - destruct (f x); [now constructor|assumption].
  - destruct (f x), (f y); try reflexivity. apply perm_swap.
  - now transitivity (List.filter f l2).
Qed.

Lemma filter_all {A} (f : A -> bool) l :
  (forall x, In x l -> f x = true) -> List.filter f l = l.
Proof.
  intros H. apply forallb_filter_id. apply forallb_forall. exact H.
Qed.

Lemma load_page_invoke self t show p w :
  _get_page_by_title self t = Ok p ->
  load_page self t show w =
  invoke (contents p) (if show then headed t w else w).
Proof. intros H. now rewrite (load_page_found self t show p w H). Qed.

(** What [list.index] answers: the first position that holds the value. *)
Lemma list_index_Ok x l i :
  list_index x l = Ok i ->
  l !! i = Some x /\ forall j y, (j < i)%nat -> l !! j = Some y -> y <> x.
Proof.
  revert i. induction l as [|y l IH]; intros i; simpl; [discriminate|].
  destruct (String.eqb_spec y x) as [->|Hne].
  - intros [= <-]. split; [reflexivity|]. intros j z Hj. lia.
  - destruct (list_index x l) as [k|e]; [|discriminate].
    intros [= <-]. destruct (IH k eq_refl) as [Hk Hfirst].
    split; [exact Hk|].
    intros [|j] z Hj; simpl.
    + now intros [= <-].
    + apply Hfirst. lia.
Qed.

Lemma list_index_Raise x l e :
  list_index x l = Raise e -> e = ValueError /\ ~ In x l.
Proof.
  induction l as [|y l IH]; simpl.
  - intros [= <-]. split; [reflexivity|tauto].
  - destruct (String.eqb_spec y x) as [->|Hne]; [discriminate|].
    destruct (list_index x l) as [i|e'] eqn:E; [discriminate|].
    intros [= <-]. destruct (IH eq_refl) as [-> Hn].
    split; [reflexivity|]. intros [?|?]; tauto.
Qed.

(** X1. The registry holds exactly the pages of the input that the viewer
    may see, as many as the filter keeps and never more than the input;
    building it writes nothing and leaves the session state as it was. *)
Theorem X1_registry_contents (w : World) (ps : list Page) :
  exists toc, __init__ ps w = (w, Ok toc) /\
    (forall x, In x (pages toc) <->
               In x ps /\ visible (username_of w) x = true) /\
    length (pages toc) =
      length (List.filter (visible (username_of w)) ps) /\
    (length (pages toc) <= length ps)%nat.
Proof.
  exists (registry_of w ps). split; [apply init_run|].
  split; [intros x; apply In_registry|].
  unfold registry_of; cbn [pages]. rewrite sorted_length.
  split; [reflexivity|]. apply filter_length_le.
Qed.

(** X2. Building a registry from the pages of a registry, under the same
    session, gives the same registry back. *)
Theorem X2_init_idempotent (w : World) (ps : list Page) :
  exists toc, __init__ ps w = (w, Ok toc) /\
              __init__ (pages toc) w = (w, Ok toc).
Proof.
  exists (registry_of w ps). split; [apply init_run|].
  rewrite init_run. do 2 f_equal.
  unfold registry_of; cbn [pages]. f_equal.
  rewrite filter_all.
  - apply sorted_of_Sorted, sorted_Sorted.
  - intros x Hx. apply sorted_In in Hx. now apply filter_In in Hx.
Qed.

(** X3. When the visible pages carry pairwise different indexes, the
    registry does not depend on the order in which the pages are given. *)
Theorem X3_order_insensitive (w : World) (ps ps' : list Page) :
  Permutation ps ps' ->
  List.NoDup (map index (List.filter (visible (username_of w)) ps)) ->
  __init__ ps w = __init__ ps' w.
Proof.
  intros Hp Hn. rewrite !init_run. do 2 f_equal.
  unfold registry_of. f_equal.
  apply (Sorted_perm_unique index); try apply sorted_StronglySorted.
  - rewrite <- !sorted_perm. now apply filter_perm.
  - apply (Permutation_NoDup
             (l := map index (List.filter (visible (username_of w)) ps)));
      [|assumption].
    apply Permutation_map, sorted_perm.
Qed.

Lemma X3_order_insensitive_witness :
  Permutation demo_pages [page_1; page_2; page_3] /\
  List.NoDup
    (map index
       (List.filter (visible (username_of (world_of (Some "admin"))))
                    demo_pages)) /\
  __init__ demo_pages (world_of (Some "admin")) =
  __init__ [page_1; page_2; page_3] (world_of (Some "admin")).
Proof.
  assert (Hp : Permutation demo_pages [page_1; page_2; page_3]).
  { unfold demo_pages.
    apply (perm_trans (l' := [page_2; page_1; page_3]));
      [apply perm_skip, perm_swap|apply perm_swap]. }
  assert (Hn : List.NoDup
                 (map index
                    (List.filter
                       (visible (username_of (world_of (Some "admin"))))
                       demo_pages))).
  { change (List.NoDup [1; 2; 0]).
    repeat constructor; simpl; intros H;
      repeat (destruct H as [H|H]; [discriminate H|]); exact H. }
  split; [exact Hp|]. split; [exact Hn|].
  exact (X3_order_insensitive (world_of (Some "admin")) demo_pages
           [page_1; page_2; page_3] Hp Hn).
Defined.

(** X4. When the session holds no username, the registry keeps a page of
    the input exactly when its [show_to] is [None] or is a list that contains
    [None]; a page whose [show_to] lists names only is dropped. *)
Theorem X4_no_username (w : World) (ps : list Page) :
  username_of w = None ->
  exists toc, __init__ ps w = (w, Ok toc) /\
    (forall x, In x (pages toc) <->
       In x ps /\
       (show_to x = None \/ exists l, show_to x = Some l /\ In None l)) /\
    (forall x names, show_to x = Some (map Some names) ->
                     ~ In x (pages toc)).
Proof.
  intros Hu. exists (registry_of w ps). split; [apply init_run|].
  assert (Hv : forall x,
             visible (username_of w) x = true <->
             show_to x = None \/ exists l, show_to x = Some l /\ In None l).
  { intros x. rewrite Hu. unfold visible.
    destruct (show_to x) as [l|].
    - rewrite py_in_true. split.
      + intros Hl. right. now exists l.
      + intros [Hn | (l' & [= <-] & Hl)]; [discriminate Hn|exact Hl].
    - split; [now left|reflexivity]. }
  split.
  - intros x. rewrite In_registry, Hv. reflexivity.
  - intros x names Hs Hin. apply In_registry in Hin as [_ Hx].
    apply Hv in Hx as [Hn | (l & Hl & Hnone)]; [congruence|].
    rewrite Hs in Hl. injection Hl as <-.
    apply in_map_iff in Hnone as (s & Hs' & _). discriminate Hs'.
Qed.

Lemma X4_no_username_witness :
  username_of (world_of None) = None /\
  exists toc,
    __init__ [page_3; anonymous_page; page_1] (world_of None) =
      (world_of None, Ok toc) /\
    In page_1 (pages toc) /\
    In anonymous_page (pages toc) /\
    ~ In page_3 (pages toc).
Proof.
  split; [reflexivity|].
  destruct (X4_no_username (world_of None) [page_3; anonymous_page; page_1]
              eq_refl) as (toc & Hrun & Hiff & Hnames).
  exists toc. split; [exact Hrun|]. split; [|split].
  - apply Hiff. split; [simpl; auto|]. left. reflexivity.
  - apply Hiff. split; [simpl; auto|]. right.
    exists [None]. split; [reflexivity|]. now left.
  - exact (Hnames page_3 ["admin"] eq_refl).
Defined.

Lemma get_page_sound (self : ToC) (t : string) :
  match _get_page_by_title self t with
  | Ok p =>
      exists i : nat,
        pages self !! i = Some p /\ title p = t /\
        forall (j : nat) q, (j < i)%nat -> pages self !! j = Some q ->
                            title q <> t
  | Raise e =>
      e = ValueError /\ forall q, In q (pages self) -> title q <> t
  end.
Proof.
  unfold _get_page_by_title, get_pages, subscript.
  destruct (list_index t (map title (pages self))) as [i|e] eqn:E.
  - apply list_index_Ok in E as [Hi Hfirst].
    rewrite list_lookup_fmap in Hi.
    destruct (pages self !! i) as [p|] eqn:Ep; [|discriminate].
    injection Hi as Hp. exists i. repeat split; try assumption.
    intros j q Hj Hq. apply (Hfirst j (title q) Hj).
    rewrite list_lookup_fmap, Hq. reflexivity.
  - apply list_index_Raise in E as [-> Hn]. split; [reflexivity|].
    intros q Hq Ht. apply Hn. rewrite <- Ht. now apply in_map.
Qed.


(** X5. Whatever the registry and the title, a lookup either returns a page
    that stands in the registry, carries the title, and has no page with
    that title in front of it, or raises [ValueError] while no page of the
    registry carries the title; it never raises [IndexError]. *)
Theorem X5_lookup_sound (self : ToC) (t : string) :
  match _get_page_by_title self t with
  | Ok p =>
      exists i : nat,
        pages self !! i = Some p /\ title p = t /\
        forall (j : nat) q, (j < i)%nat -> pages self !! j = Some q ->
                            title q <> t
  | Raise e =>
      e = ValueError /\ forall q, In q (pages self) -> title q <> t
  end.
Proof. apply get_page_sound. Qed.

(** X6. In a registry whose titles are pairwise different, looking up the
    title of any of its pages returns that page. *)
Theorem X6_unique_titles_round_trip (self : ToC) (p : Page) :
  In p (pages self) ->
  List.NoDup (get_pages self title) ->
  _get_page_by_title self (title p) = Ok p.
Proof.
  intros Hin Hn. apply in_split in Hin as (pre & post & Hl).
  apply (get_page_first self (title p) pre p post Hl eq_refl).
  intros q Hq Ht. unfold get_pages in Hn. rewrite Hl, map_app in Hn.
  simpl in Hn. apply NoDup_remove_2 in Hn. apply Hn.
  apply in_or_app. left. rewrite <- Ht. now apply in_map.
Qed.

Lemma X6_unique_titles_round_trip_witness :
  In page_3 (pages (mkToC [page_1; page_2; page_3])) /\
  List.NoDup (get_pages (mkToC [page_1; page_2; page_3]) title) /\
  _get_page_by_title (mkToC [page_1; page_2; page_3]) (title page_3) =
    Ok page_3.
Proof.
  assert (Hin : In page_3 (pages (mkToC [page_1; page_2; page_3]))).
  { simpl. auto. }
  assert (Hn : List.NoDup (get_pages (mkToC [page_1; page_2; page_3]) title)).
  { change (List.NoDup ["Overview"; "Usage"; "Secret"]).
    repeat constructor; simpl; intros H;
      repeat (destruct H as [H|H]; [discriminate H|]); exact H. }
  split; [exact Hin|]. split; [exact Hn|].
  exact (X6_unique_titles_round_trip (mkToC [page_1; page_2; page_3]) page_3
           Hin Hn).
Defined.

(** X7. When the page found holds a module that has no [load] attribute,
    [load_page] raises [AttributeError]; the heading, when asked for, is
    already on the page and nothing else is written. *)
Theorem X7_module_without_load (self : ToC) (t : string) (show : bool)
    (p : Page) (m : Object) (w : World) :
  _get_page_by_title self t = Ok p ->
  contents p = Module m ->
  attr_load m = None ->
  load_page self t show w =
    ((if show then headed t w else w), Raise AttributeError).
Proof.
  intros Hp Hc Hl. rewrite (load_page_invoke self t show p w Hp), Hc.
  unfold invoke, getattr_load. rewrite Hl. reflexivity.
Qed.

Lemma X7_module_without_load_witness :
  _get_page_by_title (mkToC [page_1; bare_page]) "Bare" = Ok bare_page /\
  contents bare_page = Module bare_module /\
  attr_load bare_module = None /\
  load_page (mkToC [page_1; bare_page]) "Bare" true (world_of None) =
    (headed "Bare" (world_of None), Raise AttributeError).
Proof.
  split; [reflexivity|]. split; [reflexivity|]. split; [reflexivity|].
  apply (X7_module_without_load (mkToC [page_1; bare_page]) "Bare" true
           bare_page bare_module (world_of None)); reflexivity.
Defined.

(** X8. On a registry built from a page list, [load_page] either finds no
    visible page with the title and raises [ValueError], having written at
    most the heading, or it invokes the contents of a page of the input that
    is visible to the viewer and carries the title: the contents of a hidden
    page is never invoked. *)
Theorem X8_only_visible_pages_invoked (w : World) (ps : list Page)
    (t : string) (show : bool) (w' : World) :
  exists toc, __init__ ps w = (w, Ok toc) /\
    ((load_page toc t show w' =
        ((if show then headed t w' else w'), Raise ValueError) /\
      forall q, In q ps -> visible (username_of w) q = true -> title q <> t)
     \/
     exists p, In p ps /\ visible (username_of w) p = true /\ title p = t /\
       load_page toc t show w' =
         invoke (contents p) (if show then headed t w' else w')).
Proof.
  exists (registry_of w ps). split; [apply init_run|].
  pose proof (get_page_sound (registry_of w ps) t) as H.
  destruct (_get_page_by_title (registry_of w ps) t) as [p|e] eqn:E.
  - right. destruct H as (i & Hi & Ht & _). exists p.
    assert (Hin : In p (pages (registry_of w ps))).
    { apply list_elem_of_In. eapply list_elem_of_lookup_2. exact Hi. }
    apply In_registry in Hin as [Hin Hv].
    repeat split; try assumption.
    now apply load_page_invoke.
  - left. destruct H as [-> Hno]. split.
    + now apply load_page_lookup_fails.
    + intros q Hq Hv. apply Hno. apply In_registry. now split.
Qed.

(** X9. Drawing the menu and loading the page it answers, as [main] does.
    On an empty registry the widget raises [IndexError]: nothing is drawn
    and [load_page] is not reached.  On a registry that is not empty: when
    the answer is one of the options offered, a page of the registry with
    that title is found and its contents invoked, after the menu and the
    optional heading; when it is not (an answer kept from an earlier run),
    the pass ends with [ValueError], the menu and the optional heading being
    on the page. *)
Theorem X9_menu_answer_resolves (answer : MenuArgs -> World -> string)
    (toc : ToC) (in_sidebar : bool) (heading : option string) (show : bool)
    (w : World) :
  let c := if in_sidebar then Sidebar else container w in
  let args := menu_args toc in_sidebar heading in
  let t := answer args (if in_sidebar then enter Sidebar w else w) in
  let w1 := drawn c args w in
  let pass := (page_title <- display_toc answer toc in_sidebar heading ;;
               load_page toc page_title show) in
  (pages toc = [] -> pass w = (w, Raise IndexError)) /\
  (In t (options args) ->
   exists p, In p (pages toc) /\ title p = t /\
     pass w = invoke (contents p) (if show then headed t w1 else w1)) /\
  (pages toc <> [] -> ~ In t (options args) ->
   pass w = ((if show then headed t w1 else w1), Raise ValueError)).
Proof.
  intros c args t w1 pass.
  assert (Hpass : pages toc <> [] -> pass w = load_page toc t show w1).
  { intros Hne. subst pass. unfold bind at 1.
    now rewrite (display_toc_nonempty answer toc in_sidebar heading w Hne). }
  pose proof (get_page_sound toc t) as H. split; [|split].
  - intros He. subst pass. unfold bind at 1.
    now rewrite (display_toc_empty answer toc in_sidebar heading w He).
  - intros Hin.
    assert (Hne : pages toc <> []).
    { intros He. cbn [options args menu_args] in Hin.
      unfold get_pages in Hin. rewrite He in Hin. destruct Hin. }
    rewrite (Hpass Hne).
    destruct (_get_page_by_title toc t) as [p|e] eqn:E.
    + destruct H as (i & Hi & Ht & _). exists p.
      split; [|split; [assumption|now apply load_page_invoke]].
      apply list_elem_of_In. eapply list_elem_of_lookup_2. exact Hi.
    + exfalso. destruct H as [_ Hno].
      cbn [options args menu_args] in Hin. unfold get_pages in Hin.
      apply in_map_iff in Hin as (q & Hq & Hin). now apply (Hno q).
  - intros Hne Hout. rewrite (Hpass Hne).
    apply load_page_lookup_fails. apply get_page_absent.
    intros q Hq Ht. apply Hout. cbn [options args menu_args]. rewrite <- Ht.
    unfold get_pages. now apply in_map.
Qed.

Lemma X9_menu_answer_resolves_witness :
  pages (mkToC []) = [] /\
  In "Usage" (get_pages (mkToC [page_1; page_2]) title) /\
  pages (mkToC [page_1; page_2]) <> [] /\
  ~ In "Secret" (get_pages (mkToC [page_1; page_2]) title) /\
  (page_title <- display_toc (pick "") (mkToC []) false None ;;
   load_page (mkToC []) page_title true) (world_of None) =
    (world_of None, Raise IndexError) /\
  (exists p, In p [page_1; page_2] /\ title p = "Usage" /\
     (page_title <- display_toc (pick "Usage") (mkToC [page_1; page_2])
                      true None ;;
      load_page (mkToC [page_1; page_2]) page_title true) (world_of None) =
     invoke (contents p)
       (headed "Usage"
          (drawn Sidebar
             (mkMenuArgs None ["Overview"; "Usage"] vertical
                         ["house"; "code-slash"])
             (world_of None)))) /\
  (page_title <- display_toc (pick "Secret") (mkToC [page_1; page_2])
                   false None ;;
   load_page (mkToC [page_1; page_2]) page_title true) (world_of None) =
    (headed "Secret"
       (drawn MainArea
          (mkMenuArgs None ["Overview"; "Usage"] horizontal
                      ["house"; "code-slash"])
          (world_of None)),
     Raise ValueError).
Proof.
  assert (H1 : In "Usage" (get_pages (mkToC [page_1; page_2]) title)).
  { simpl. auto. }
  assert (H2 : pages (mkToC [page_1; page_2]) <> []) by discriminate.
  assert (H3 : ~ In "Secret" (get_pages (mkToC [page_1; page_2]) title)).
  { intros [H | [H | [ ]]]; discriminate H. }
  split; [reflexivity|]. split; [exact H1|]. split; [exact H2|].
  split; [exact H3|]. split; [|split].
  - exact (proj1 (X9_menu_answer_resolves (pick "") (mkToC []) false None
                    true (world_of None))
                 eq_refl).
  - exact (proj1 (proj2 (X9_menu_answer_resolves (pick "Usage")
                           (mkToC [page_1; page_2]) true None true
                           (world_of None)))
                 H1).
  - exact (proj2 (proj2 (X9_menu_answer_resolves (pick "Secret")
                           (mkToC [page_1; page_2]) false None true
                           (world_of None)))
                 H2 H3).
Defined.

(** The registry that [main] builds when the session's username is not
    ["admin"]: the two open pages, by index. *)
Lemma main_registry_not_admin (w : World) (b1 b2 b3 : Action unit) :
  username_of w <> Some "admin" ->
  registry_of w (main_pages b1 b2 b3) =
  mkToC [ mkPage "page1" "Page 1" "person-square" (Callable b1) 0 None;
          mkPage "page2" "Page 2" "hand-index-thumb" (Callable b2) 1 None ].
Proof.
  intros Hu. unfold registry_of, main_pages. cbn [List.filter visible show_to].
  assert (Hv : py_in (username_of w) [Some "admin"] = false).
  { destruct (username_of w) as [u|]; [|reflexivity]. simpl.
    destruct (String.eqb_spec u "admin") as [->|_]; [|reflexivity].
    now contradiction Hu. }
  rewrite Hv. reflexivity.
Qed.

(** X10. A run of [main] that starts with a session whose username is not
    ["admin"] (or with none) does not depend on the body of the secret page:
    whatever the widgets do and answer during the run, and whatever is typed
    in the username field, that body is not invoked. *)
Theorem X10_main_secret_page_needs_admin
    (answer : MenuArgs -> World -> string)
    (text_input : string -> option string -> option string -> Action string)
    (columns : nat -> Action unit) (checkbox : string -> bool -> Action bool)
    (b1 b2 b3 b3' : Action unit) (w : World) :
  username_of w <> Some "admin" ->
  main answer text_input columns checkbox b1 b2 b3 w =
  main answer text_input columns checkbox b1 b2 b3' w.
Proof.
  intros Hu. unfold main.
  unfold bind at 1. rewrite init_run.
  rewrite (main_registry_not_admin w b1 b2 b3 Hu).
  symmetry. unfold bind at 1. rewrite init_run.
  rewrite (main_registry_not_admin w b1 b2 b3' Hu).
  reflexivity.
Qed.

Lemma X10_main_secret_page_needs_admin_witness :
  username_of (world_of (Some "user")) <> Some "admin" /\
  main (pick "Secret page") (typed_text_input "admin") plain_columns
       plain_checkbox (say "one") (say "two") (say "secret")
       (world_of (Some "user")) =
  main (pick "Secret page") (typed_text_input "admin") plain_columns
       plain_checkbox (say "one") (say "two") (say "other")
       (world_of (Some "user")).
Proof.
  assert (Hu : username_of (world_of (Some "user")) <> Some "admin").
  { intros H. vm_compute in H. discriminate H. }
  split; [exact Hu|].
  exact (X10_main_secret_page_needs_admin (pick "Secret page")
           (typed_text_input "admin") plain_columns plain_checkbox
           (say "one") (say "two") (say "secret") (say "other")
           (world_of (Some "user")) Hu).
Defined.
